(** * DineFlow front end: the API service layer (src/app/api/services.js)

    A shallow embedding of the request executor, the token store and the
    [auth.logout] wrapper, together with the parts of the JavaScript
    platform the code relies on: truthiness, string conversion,
    [JSON.stringify], [URLSearchParams], [localStorage] and [fetch].

    Strings are byte strings: the UTF-8 form of well-formed text, on which
    the platform's UTF-8 decoding is the identity. Numbers are the safe
    integers (magnitude below 2^53), which JavaScript prints in plain
    decimal. Objects are trees of data properties with the standard
    prototypes: no cycles, no functions. Local storage is taken to be
    available, as it is in a browser, and errors carry a name and a message
    that are strings. *)

From Stdlib Require Import ZArith String Ascii List DecimalString.
From stdpp Require Import gmap strings.

Local Open Scope string_scope.
Local Open Scope Z_scope.

(** ** JavaScript values *)

Module Js.

(** The values that flow through the service layer: request bodies, query
    parameters and parsed JSON payloads. Objects keep their own properties
    in enumeration order and inherit from Object.prototype; lists inherit
    from Array.prototype. [JNum n] is the number n, for n a safe integer. *)
#[warnings="-register-all"]
Inductive JsVal : Type :=
| JUndefined
| JNull
| JBool (b : bool)
| JNum (n : Z)
| JBigInt (n : Z)
| JStr (s : string)
| JArr (elems : list JsVal)
| JObj (props : list (string * JsVal))
| JFormData (entries : list (string * string)).

(** What a failed computation throws. [ApiError] is the class of
    services.js (its [name] is set by the constructor); [JsError] stands for
    every other error object, with its [name] and [message]. *)
Inductive Exn : Type :=
| ApiError (message : string) (status : Z) (data : JsVal)
| JsError (name message : string).

Definition error_name (e : Exn) : string :=
  match e with
  | ApiError _ _ _ => "ApiError"
  | JsError n _ => n
  end.

Definition error_message (e : Exn) : string :=
  match e with
  | ApiError m _ _ => m
  | JsError _ m => m
  end.

(** ToBoolean: the test of [if (x)] and of [x || y]. *)
Definition ToBoolean (v : JsVal) : bool :=
  match v with
  | JUndefined | JNull => false
  | JBool b => b
  | JNum n | JBigInt n => negb (n =? 0)
  | JStr s => negb (String.eqb s "")
  | JArr _ | JObj _ | JFormData _ => true
  end.

(** [a || b] on values. *)
Definition js_or (a b : JsVal) : JsVal := if ToBoolean a then a else b.

(** Plain decimal digits, with a minus sign below zero: how a BigInt and a
    safe integer print. *)
Definition decimal (n : Z) : string := NilZero.string_of_int (Z.to_int n).

(** Property read [v.k] on a value that is neither null nor undefined, for
    a key such as [message] that no prototype defines: the own property of
    an object (whose keys are distinct), undefined on every other value. *)
Fixpoint lookup_prop (k : string) (props : list (string * JsVal)) : JsVal :=
  match props with
  | [] => JUndefined
  | (k', v) :: rest => if String.eqb k k' then v else lookup_prop k rest
  end.

Definition get_prop (v : JsVal) (k : string) : JsVal :=
  match v with
  | JObj props => lookup_prop k props
  | _ => JUndefined
  end.

(** Optional chaining [v?.k]. *)
Definition opt_chain (v : JsVal) (k : string) : JsVal :=
  match v with
  | JUndefined | JNull => JUndefined
  | _ => get_prop v k
  end.

End Js.
Export Js.

(** ** Results of fallible code *)

Module Result.

Inductive Result (A : Type) : Type :=
| Ok (a : A)
| Throw (e : Exn).
Arguments Ok {A} a.
Arguments Throw {A} e.

Definition bind {A B} (m : Result A) (k : A -> Result B) : Result B :=
  match m with
  | Ok a => k a
  | Throw e => Throw e
  end.

Section MapM.
Context {A B : Type} (f : A -> Result B).

Fixpoint mapM (l : list A) : Result (list B) :=
  match l with
  | [] => Ok []
  | a :: rest =>
      match f a with
      | Throw e => Throw e
      | Ok b =>
          match mapM rest with
          | Throw e => Throw e
          | Ok bs => Ok (b :: bs)
          end
      end
  end.
End MapM.

End Result.
Export Result.

(** ** String conversion *)

Module Convert.

Definition cannot_convert : Exn :=
  JsError "TypeError" "Cannot convert object to primitive value".

(** The object has an own property of that name. *)
Definition has_own (k : string) (props : list (string * JsVal)) : bool :=
  existsb (fun kv => String.eqb k (fst kv)) props.

(** ToString, as applied by the [Error] constructor to its message, by a
    template literal to its parts, by [localStorage.setItem] to its value
    and by [URLSearchParams] to names and values. A list is joined as
    [Array.prototype.join] does. An object is converted by the [toString]
    it inherits, unless a property of its own hides it: its own [toString]
    is data, not a function, [valueOf] gives no primitive either, and the
    conversion throws. *)
Fixpoint ToString (v : JsVal) : Result string :=
  match v with
  | JUndefined => Ok "undefined"
  | JNull => Ok "null"
  | JBool true => Ok "true"
  | JBool false => Ok "false"
  | JNum n | JBigInt n => Ok (decimal n)
  | JStr s => Ok s
  | JArr l =>
      bind (mapM (fun e => match e with
                           | JUndefined | JNull => Ok ""
                           | _ => ToString e
                           end) l)
           (fun parts => Ok (String.concat "," parts))
  | JObj props =>
      if has_own "toString" props then Throw cannot_convert
      else Ok "[object Object]"
  | JFormData _ => Ok "[object FormData]"
  end.

(** The string a value converts to, for a value that converts (the empty
    string stands in for one that does not). *)
Definition string_form (v : JsVal) : string :=
  match ToString v with
  | Ok s => s
  | Throw _ => ""
  end.

End Convert.
Export Convert.

(** ** JSON.stringify *)

Module JSON.

Definition hex_lower (n : N) : ascii :=
  if (n <? 10)%N then ascii_of_N (48 + n) else ascii_of_N (87 + n).

(** QuoteJSONString, one byte at a time: the two-character escapes, a
    six-character escape for the other control bytes, the byte itself
    otherwise. *)
Definition quote_char (c : ascii) : string :=
  let n := N_of_ascii c in
  if (n =? 8)%N then "\b"
  else if (n =? 9)%N then "\t"
  else if (n =? 10)%N then "\n"
  else if (n =? 12)%N then "\f"
  else if (n =? 13)%N then "\r"
  else if (n =? 34)%N then String "092" (String "034" "")
  else if (n =? 92)%N then String "092" (String "092" "")
  else if (n <? 32)%N then
    "\u00" ++ String (hex_lower (n / 16)) (String (hex_lower (n mod 16)) "")
  else String c "".

Fixpoint quote_body (s : string) : string :=
  match s with
  | EmptyString => ""
  | String c rest => quote_char c ++ quote_body rest
  end.

Definition QuoteJSONString (s : string) : string :=
  String "034" (quote_body s ++ String "034" "").

(** SerializeJSONProperty: [Ok None] is the undefined result (the value is
    left out of an object and written as null in an array); a BigInt
    throws. *)
Fixpoint SerializeJSONProperty (v : JsVal) : Result (option string) :=
  match v with
  | JUndefined => Ok None
  | JNull => Ok (Some "null")
  | JBool true => Ok (Some "true")
  | JBool false => Ok (Some "false")
  | JNum n => Ok (Some (decimal n))
  | JBigInt _ => Throw (JsError "TypeError" "Do not know how to serialize a BigInt")
  | JStr s => Ok (Some (QuoteJSONString s))
  | JArr l =>
      bind (mapM (fun e => bind (SerializeJSONProperty e)
                             (fun o => Ok (default "null" o))) l)
           (fun parts => Ok (Some ("[" ++ String.concat "," parts ++ "]")))
  | JObj props =>
      bind (mapM (fun kv => bind (SerializeJSONProperty (snd kv))
                              (fun o => Ok (option_map
                                 (fun s => QuoteJSONString (fst kv) ++ ":" ++ s) o)))
                 props)
           (fun parts => Ok (Some ("{" ++ String.concat "," (omap id parts) ++ "}")))
  | JFormData _ => Ok (Some "{}")
  end.

(** [JSON.stringify(v)]: a string, or undefined. *)
Definition stringify (v : JsVal) : Result JsVal :=
  bind (SerializeJSONProperty v)
       (fun o => Ok (match o with Some s => JStr s | None => JUndefined end)).

End JSON.

(** ** URLSearchParams *)

Module URLSearchParams.

Definition hex_upper (n : N) : ascii :=
  if (n <? 10)%N then ascii_of_N (48 + n) else ascii_of_N (55 + n).

Definition hex_value (c : ascii) : option N :=
  let n := N_of_ascii c in
  if ((48 <=? n) && (n <=? 57))%N then Some (n - 48)%N
  else if ((65 <=? n) && (n <=? 70))%N then Some (n - 55)%N
  else if ((97 <=? n) && (n <=? 102))%N then Some (n - 87)%N
  else None.

(** The bytes the application/x-www-form-urlencoded serializer leaves as
    they are: ASCII letters and digits and the four bytes * - . _ *)
Definition unreserved (c : ascii) : bool :=
  let n := N_of_ascii c in
  ((48 <=? n) && (n <=? 57) || (65 <=? n) && (n <=? 90)
   || (97 <=? n) && (n <=? 122)
   || (n =? 42) || (n =? 45) || (n =? 46) || (n =? 95))%N.

Definition encode_byte (c : ascii) : string :=
  let n := N_of_ascii c in
  if (n =? 32)%N then "+"
  else if unreserved c then String c ""
  else String "%" (String (hex_upper (n / 16)) (String (hex_upper (n mod 16)) "")).

Fixpoint encode (s : string) : string :=
  match s with
  | EmptyString => ""
  | String c rest => encode_byte c ++ encode rest
  end.

(** The urlencoded serializer: name=value tuples joined by an ampersand. *)
Definition tuple (p : string * string) : string :=
  encode (fst p) ++ "=" ++ encode (snd p).

Definition serialize (l : list (string * string)) : string :=
  String.concat "&" (map tuple l).

Fixpoint plus_to_space (s : string) : string :=
  match s with
  | EmptyString => ""
  | String c rest =>
      String (if Ascii.eqb c "+" then " "%char else c) (plus_to_space rest)
  end.

(** Percent-decoding. The parser then decodes the bytes as UTF-8, which
    leaves well-formed text as it is; escapes that do not spell UTF-8 are
    outside the strings this development speaks of. *)
Fixpoint percent_decode (s : string) : string :=
  match s with
  | EmptyString => ""
  | String c rest =>
      if Ascii.eqb c "%" then
        match rest with
        | String a (String b rest') =>
            match hex_value a, hex_value b with
            | Some h, Some l =>
                String (ascii_of_N (16 * h + l)) (percent_decode rest')
            | _, _ => String c (percent_decode rest)
            end
        | _ => String c (percent_decode rest)
        end
      else String c (percent_decode rest)
  end.

Definition decode (s : string) : string := percent_decode (plus_to_space s).

(** Strict split on one byte: an empty input is one empty piece. *)
Fixpoint split_on (sep : ascii) (s : string) : list string :=
  match s with
  | EmptyString => [""]
  | String c rest =>
      if Ascii.eqb c sep then "" :: split_on sep rest
      else match split_on sep rest with
           | [] => [String c ""]
           | h :: t => String c h :: t
           end
  end.

(** A piece up to its first equals sign, and what follows the sign. *)
Fixpoint break_eq (s : string) : string * option string :=
  match s with
  | EmptyString => ("", None)
  | String c rest =>
      if Ascii.eqb c "=" then ("", Some rest)
      else let (n, v) := break_eq rest in (String c n, v)
  end.

Definition parse_pair (piece : string) : string * string :=
  let (n, v) := break_eq piece in (decode n, decode (default "" v)).

(** The urlencoded parser: empty pieces are skipped. *)
Definition parse (s : string) : list (string * string) :=
  map parse_pair
      (List.filter (fun piece => negb (String.eqb piece "")) (split_on "&" s)).

Definition not_a_sequence : Exn :=
  JsError "TypeError"
    "Failed to construct 'URLSearchParams': The provided value cannot be converted to a sequence.".

Definition not_a_pair : Exn :=
  JsError "TypeError"
    "Failed to construct 'URLSearchParams': Sequence initializer must only contain pair elements".

(** One element of a sequence initializer, converted to a sequence of
    strings: it must be an object that can be iterated, a list or a
    FormData (whose items are its name-value lists). A string or any other
    primitive is refused, and so is a plain object. *)
Definition inner_sequence (v : JsVal) : Result (list string) :=
  match v with
  | JArr items => mapM ToString items
  | JFormData entries =>
      Ok (map (fun kv => fst kv ++ "," ++ snd kv) entries)
  | _ => Throw not_a_sequence
  end.

(** After the conversion, every inner sequence must have two items. *)
Definition pair_of (items : list string) : Result (string * string) :=
  match items with
  | [a; b] => Ok (a, b)
  | _ => Throw not_a_pair
  end.

Definition strip_question (s : string) : string :=
  match s with
  | String c rest => if Ascii.eqb c "?" then rest else s
  | EmptyString => s
  end.

(** [new URLSearchParams(init)]: the list of name-value tuples. An iterable
    is read as a sequence of pairs (all of it is converted before the
    lengths are checked), any other object as a record whose values are
    converted to strings, and everything else through its string form. *)
Definition new (init : JsVal) : Result (list (string * string)) :=
  match init with
  | JUndefined => Ok []
  | JArr l => bind (mapM inner_sequence l) (mapM pair_of)
  | JFormData entries => Ok entries
  | JObj props =>
      mapM (fun kv => bind (ToString (snd kv)) (fun s => Ok (fst kv, s))) props
  | v => bind (ToString v) (fun s => Ok (parse (strip_question s)))
  end.

Definition toString (l : list (string * string)) : string := serialize l.

(** The string holds no occurrence of the byte. *)
Fixpoint avoids (sep : ascii) (s : string) : bool :=
  match s with
  | EmptyString => true
  | String c rest => negb (Ascii.eqb c sep) && avoids sep rest
  end.

End URLSearchParams.

(** ** The service layer *)

Module Services.

(** The options bag of [request]: [method], [body], [params] and [headers]
    are picked out by the destructuring pattern, [options] is the rest.
    An absent [body] or [params] is [JUndefined]; [headers] defaults to the
    empty object. *)
Record Options : Type := {
  method : option string;
  body : JsVal;
  params : JsVal;
  headers : gmap string string;
  options : list (string * JsVal)
}.

Definition no_options : Options :=
  {| method := None; body := JUndefined; params := JUndefined;
     headers := ∅; options := [] |}.

(** [requestOptions], the second argument of [fetch]. [req_body] is [None]
    as long as the property has not been assigned. *)
Record RequestInit : Type := {
  req_method : string;
  req_headers : gmap string string;
  req_options : list (string * JsVal);
  req_body : option JsVal
}.

(** What the code reads of a response. [json] is [None] when
    [response.json()] rejects: the body is empty or is not JSON. *)
Record Response : Type := {
  status : Z;
  statusText : string;
  json : option JsVal
}.

(** [response.ok]: the status is in the range 200 to 299. *)
Definition ok (r : Response) : bool := (200 <=? status r) && (status r <=? 299).

(** The browser state the layer touches: local storage, and the requests
    handed to [fetch] so far, oldest first. *)
Record World : Type := {
  localStorage : gmap string string;
  sent : list (string * RequestInit)
}.

(** Effectful code: a state transformer over [World] that returns or
    throws. *)
Definition M (A : Type) : Type := World -> World * Result A.

Definition ret {A} (a : A) : M A := fun w => (w, Ok a).
Definition throw {A} (e : Exn) : M A := fun w => (w, Throw e).
Definition lift {A} (r : Result A) : M A := fun w => (w, r).

Definition bindM {A B} (m : M A) (k : A -> M B) : M B :=
  fun w => match m w with
           | (w', Ok a) => k a w'
           | (w', Throw e) => (w', Throw e)
           end.

(** [try { m } catch (error) { h error }] *)
Definition try_catch {A} (m : M A) (h : Exn -> M A) : M A :=
  fun w => match m w with
           | (w', Ok a) => (w', Ok a)
           | (w', Throw e) => h e w'
           end.

Notation "'do' x <- m ;; k" := (bindM m (fun x => k))
  (at level 10, x name, m at level 99, k at level 200).
Notation "'run' m ;; k" := (bindM m (fun _ => k))
  (at level 10, m at level 99, k at level 200).

(** [new ApiError(message, status, data)], lines 7-14: the [Error]
    constructor turns a message that is not undefined into a string, and
    throws when the message has no string form. *)
Definition new_ApiError (message : JsVal) (status : Z) (data : JsVal)
  : Result Exn :=
  bind (match message with JUndefined => Ok "" | m => ToString m end)
       (fun text => Ok (ApiError text status data)).

(** [throw new ApiError(message, status, data)] *)
Definition throw_new_ApiError {A} (message : JsVal) (status : Z) (data : JsVal)
  : M A :=
  match new_ApiError message status data with
  | Ok error => throw error
  | Throw e => throw e
  end.

(** Token management utilities. *)
Definition getItem (key : string) : M JsVal :=
  fun w => (w, Ok (match localStorage w !! key with
                   | Some s => JStr s
                   | None => JNull
                   end)).

Definition setItem (key : string) (value : JsVal) : M unit :=
  fun w => match ToString value with
           | Ok text => ({| localStorage := <[key := text]> (localStorage w);
                            sent := sent w |}, Ok tt)
           | Throw e => (w, Throw e)
           end.

Definition removeItem (key : string) : M unit :=
  fun w => ({| localStorage := delete key (localStorage w);
               sent := sent w |}, Ok tt).

Definition getAuthToken : M JsVal := getItem "token".
Definition setAuthToken (token : JsVal) : M unit := setItem "token" token.
Definition clearAuthToken : M unit := removeItem "token".

(** What [getAuthToken] reads in a world. *)
Definition stored_token (w : World) : JsVal :=
  match localStorage w !! "token" with
  | Some s => JStr s
  | None => JNull
  end.

(** The world after one more request was handed to [fetch]. *)
Definition after_fetch (w : World) (url : string) (ro : RequestInit) : World :=
  {| localStorage := localStorage w; sent := sent w ++ [(url, ro)] |}.

(** The parsed body of a response, or null when parsing was rejected: the
    value [responseData] is bound to. *)
Definition payload (r : Response) : JsVal := default JNull (json r).

(** The same options with another [body]. *)
Definition with_body (b : JsVal) (o : Options) : Options :=
  {| method := method o; body := b; params := params o;
     headers := headers o; options := options o |}.

Section Request.

(** [process.env.NEXT_PUBLIC_API_URL], and the network: what [fetch]
    settles to for a given URL and options. *)
Variable NEXT_PUBLIC_API_URL : option string.
Variable network : string -> RequestInit -> Result Response.

Definition API_BASE : string :=
  match NEXT_PUBLIC_API_URL with
  | Some u => if String.eqb u "" then "http://127.0.0.1:5000/api" else u ++ "/api"
  | None => "http://127.0.0.1:5000/api"
  end.

Definition fetch (url : string) (init : RequestInit) : M Response :=
  fun w => ({| localStorage := localStorage w;
               sent := sent w ++ [(url, init)] |}, network url init).

(** Lines 27-31: build URL with query parameters. *)
Definition build_url (path : string) (params : JsVal) : Result string :=
  let url := API_BASE ++ path in
  if ToBoolean params then
    bind (URLSearchParams.new params)
         (fun searchParams => Ok (url ++ "?" ++ URLSearchParams.toString searchParams))
  else Ok url.

(** Lines 34-41: the default content type, overridden by the caller's
    headers. *)
Definition initial_options (o : Options) : RequestInit :=
  {| req_method := default "GET" (method o);
     req_headers := headers o ∪ {["Content-Type" := "application/json"]};
     req_options := options o;
     req_body := None |}.

(** Lines 45-47. The token is what [getItem] returned, a string or null,
    so the template literal finds a string to splice in. *)
Definition add_authorization (token : JsVal) (ro : RequestInit) : RequestInit :=
  if ToBoolean token then
    {| req_method := req_method ro;
       req_headers := <["Authorization" := "Bearer " ++ string_form token]> (req_headers ro);
       req_options := req_options ro;
       req_body := req_body ro |}
  else ro.

(** Lines 50-57: handle body data (JSON or FormData). *)
Definition attach_body (body : JsVal) (ro : RequestInit) : Result RequestInit :=
  if ToBoolean body then
    match body with
    | JFormData _ =>
        Ok {| req_method := req_method ro;
              req_headers := delete "Content-Type" (req_headers ro);
              req_options := req_options ro;
              req_body := Some body |}
    | _ =>
        bind (JSON.stringify body)
             (fun text => Ok {| req_method := req_method ro;
                                req_headers := req_headers ro;
                                req_options := req_options ro;
                                req_body := Some text |})
    end
  else Ok ro.

(** Lines 27-57: everything before the [try] block. A throw here leaves
    the function as it is. *)
Definition prepare (path : string) (o : Options) : M (string * RequestInit) :=
  do url <- lift (build_url path (params o)) ;;
  do token <- getAuthToken ;;
  do requestOptions <- lift (attach_body (body o)
                            (add_authorization token (initial_options o))) ;;
  ret (url, requestOptions).

(** Lines 60-71: the body of the [try] block. *)
Definition exchange (url : string) (requestOptions : RequestInit) : M JsVal :=
  do response <- fetch url requestOptions ;;
  let responseData := default JNull (json response) in
  if negb (ok response) then
    throw_new_ApiError
      (js_or (opt_chain responseData "message") (JStr (statusText response)))
      (status response) responseData
  else ret responseData.

(** Lines 72-82: the [catch] block. *)
Definition handler (error : Exn) : M JsVal :=
  if String.eqb (error_name error) "ApiError" then throw error
  else throw_new_ApiError
         (js_or (JStr (error_message error)) (JStr "Network request failed"))
         0 JNull.

(** Core request function. *)
Definition request (path : string) (o : Options) : M JsVal :=
  do p <- prepare path o ;;
  try_catch (exchange (fst p) (snd p)) handler.

(** Four of the resource methods. *)
Definition auth_logout : M JsVal :=
  run clearAuthToken ;; request "/auth/logout" no_options.

Definition user_uploadAvatar (file : string) : M JsVal :=
  request "/user/avatar"
    {| method := Some "POST"; body := JFormData [("avatar", file)];
       params := JUndefined; headers := ∅; options := [] |}.

Definition reservation_getAll (params : JsVal) : M JsVal :=
  request "/reservations"
    {| method := None; body := JUndefined; params := params;
       headers := ∅; options := [] |}.

Definition payment_adjust (id adjustment : JsVal) : M JsVal :=
  do idText <- lift (ToString id) ;;
  request ("/payments/" ++ idText ++ "/adjust")
    {| method := Some "POST"; body := adjustment; params := JUndefined;
       headers := ∅; options := [] |}.

End Request.

End Services.
Export Services.

(** ** Sample worlds, responses and networks *)

Module Samples.

Definition signed_out : World := {| localStorage := ∅; sent := [] |}.

Definition signed_in : World :=
  {| localStorage := {["token" := "abc"]}; sent := [] |}.

Definition empty_token : World :=
  {| localStorage := {["token" := ""]}; sent := [] |}.

Definition not_found : Response :=
  {| status := 404; statusText := "Not Found";
     json := Some (JObj [("message", JStr "not found")]) |}.

Definition empty_message : Response :=
  {| status := 400; statusText := "Bad Request";
     json := Some (JObj [("message", JStr "")]) |}.

Definition no_content : Response :=
  {| status := 204; statusText := "No Content"; json := None |}.

Definition created : Response :=
  {| status := 201; statusText := "Created";
     json := Some (JObj [("id", JNum 7)]) |}.

(** A network that settles every call the same way. *)
Definition answers (r : Response) : string -> RequestInit -> Result Response :=
  fun _ _ => Ok r.

Definition unreachable : string -> RequestInit -> Result Response :=
  fun _ _ => Throw (JsError "TypeError" "Failed to fetch").

Definition local_url (path : string) : string :=
  "http://127.0.0.1:5000/api" ++ path.

Definition post (b : JsVal) : Options :=
  {| method := Some "POST"; body := b; params := JUndefined;
     headers := ∅; options := [] |}.

Definition with_headers (h : gmap string string) : Options :=
  {| method := None; body := JUndefined; params := JUndefined;
     headers := h; options := [] |}.

End Samples.

(** ** One more of the resource methods *)

Module Catalog.

Section Catalog.

Variable NEXT_PUBLIC_API_URL : option string.
Variable network : string -> RequestInit -> Result Response.

(** [user.changeStatus], lines 101-105: the path is a template literal,
    evaluated before [request] is called. *)
Definition user_changeStatus (userId status days : JsVal) : M JsVal :=
  do idText <- lift (ToString userId) ;;
  request NEXT_PUBLIC_API_URL network ("/user/status/" ++ idText)
    {| method := Some "PATCH";
       body := JObj [("status", status); ("days", days)];
       params := JUndefined; headers := ∅; options := [] |}.

End Catalog.

End Catalog.
Export Catalog.

(** ** Predicates used to state properties *)

Module Checks.


(** The bytes a serialized query string is made of: what the serializer
    leaves as it is, and the four bytes + % = & it writes itself. *)
Definition query_byte (c : ascii) : bool :=
  URLSearchParams.unreserved c
  || Ascii.eqb c "+" || Ascii.eqb c "%" || Ascii.eqb c "=" || Ascii.eqb c "&".

Fixpoint all_bytes (P : ascii -> bool) (s : string) : bool :=
  match s with
  | EmptyString => true
  | String c rest => P c && all_bytes P rest
  end.

(** What the [catch] block makes of a failed conversion of the error
    message. *)
Definition conversion_failure : Exn :=
  ApiError "Cannot convert object to primitive value" 0 JNull.

(** An object's properties without those whose value is undefined. *)
Definition defined_props (props : list (string * JsVal)) : list (string * JsVal) :=
  List.filter (fun kv => match snd kv with JUndefined => false | _ => true end)
    props.

(** The world with one more key in local storage, for any other state. *)
Definition with_item (k v : string) (w : World) : World :=
  {| localStorage := <[k := v]> (localStorage w); sent := sent w |}.

End Checks.
Export Checks.

(** * Properties *)

(** ** The urlencoded serializer and parser are inverse to each other *)

Module URLFacts.
Import URLSearchParams.

Lemma avoids_app sep a b :
  avoids sep (a ++ b) = avoids sep a && avoids sep b.
Proof.
  induction a as [|c a IH]; simpl; [reflexivity|].
  rewrite IH. apply andb_assoc.
Qed.

Lemma plus_to_space_app a b :
  plus_to_space (a ++ b) = plus_to_space a ++ plus_to_space b.
Proof. induction a as [|c a IH]; simpl; [reflexivity | now rewrite IH]. Qed.

Lemma decode_encode_byte c s :
  percent_decode (plus_to_space (encode_byte c) ++ s) = String c (percent_decode s).
Proof. destruct c as [[] [] [] [] [] [] [] []]; reflexivity. Qed.

Lemma encode_byte_avoids c :
  avoids "&" (encode_byte c) = true /\ avoids "=" (encode_byte c) = true.
Proof. destruct c as [[] [] [] [] [] [] [] []]; split; reflexivity. Qed.

Lemma decode_encode s : decode (encode s) = s.
Proof.
  unfold decode. induction s as [|c s IH]; simpl; [reflexivity|].
  rewrite plus_to_space_app, decode_encode_byte. now rewrite IH.
Qed.

Lemma encode_avoids s :
  avoids "&" (encode s) = true /\ avoids "=" (encode s) = true.
Proof.
  induction s as [|c s [IH1 IH2]]; simpl; [now split|].
  rewrite !avoids_app, IH1, IH2.
  destruct (encode_byte_avoids c) as [-> ->]. now split.
Qed.

Lemma break_eq_app a b :
  avoids "=" a = true -> break_eq (a ++ String "=" b) = (a, Some b).
Proof.
  induction a as [|c a IH]; simpl; [reflexivity|].
  intros H. apply andb_prop in H as [Hc Ha].
  destruct (Ascii.eqb c "="); [discriminate|].
  now rewrite (IH Ha).
Qed.

Lemma split_on_avoids sep a : avoids sep a = true -> split_on sep a = [a].
Proof.
  induction a as [|c a IH]; simpl; [reflexivity|].
  intros H. apply andb_prop in H as [Hc Ha].
  destruct (Ascii.eqb c sep); [discriminate|].
  now rewrite (IH Ha).
Qed.

Lemma split_on_app sep a b :
  avoids sep a = true -> split_on sep (a ++ String sep b) = a :: split_on sep b.
Proof.
  induction a as [|c a IH]; simpl.
  - intros _. now rewrite Ascii.eqb_refl.
  - intros H. apply andb_prop in H as [Hc Ha].
    destruct (Ascii.eqb c sep); [discriminate|].
    now rewrite (IH Ha).
Qed.

Lemma tuple_avoids p : avoids "&" (tuple p) = true.
Proof.
  unfold tuple. rewrite !avoids_app.
  destruct (encode_avoids (fst p)) as [-> _].
  destruct (encode_avoids (snd p)) as [-> _]. reflexivity.
Qed.

Lemma tuple_nonempty p : String.eqb (tuple p) "" = false.
Proof. unfold tuple. destruct (encode (fst p)); reflexivity. Qed.

Lemma parse_pair_tuple p : parse_pair (tuple p) = p.
Proof.
  unfold parse_pair.
  change (tuple p) with (encode (fst p) ++ String "=" (encode (snd p))).
  rewrite break_eq_app by apply encode_avoids.
  simpl. rewrite !decode_encode. now destruct p.
Qed.

Lemma split_serialize p l :
  split_on "&" (serialize (p :: l)) = map tuple (p :: l).
Proof.
  unfold serialize. revert p.
  induction l as [|p' l IH]; intros p.
  - simpl. apply split_on_avoids, tuple_avoids.
  - change (String.concat "&" (map tuple (p :: p' :: l)))
      with (tuple p ++ String "&" (String.concat "&" (map tuple (p' :: l)))).
    rewrite split_on_app by apply tuple_avoids.
    change (map tuple (p :: p' :: l)) with (tuple p :: map tuple (p' :: l)).
    f_equal. apply IH.
Qed.

Lemma parse_pieces l :
  map parse_pair
      (List.filter (fun piece => negb (String.eqb piece "")) (map tuple l)) = l.
Proof.
  induction l as [|p l IH]; simpl; [reflexivity|].
  rewrite tuple_nonempty. simpl. now rewrite parse_pair_tuple, IH.
Qed.

(** Decoding what the serializer wrote gives back the tuples, in order. *)
Lemma parse_serialize l : parse (serialize l) = l.
Proof.
  destruct l as [|p l]; [reflexivity|].
  unfold parse. rewrite split_serialize. apply parse_pieces.
Qed.

End URLFacts.

(** ** String conversion and the error constructor *)

Module JsFacts.

(** Induction on values, with the hypothesis for every element of a list
    and every property of an object. *)
Lemma JsVal_nested_ind (P : JsVal -> Prop) :
  P JUndefined -> P JNull -> (forall b, P (JBool b)) ->
  (forall n, P (JNum n)) -> (forall n, P (JBigInt n)) ->
  (forall s, P (JStr s)) ->
  (forall l, Forall P l -> P (JArr l)) ->
  (forall props, Forall (fun kv => P (snd kv)) props -> P (JObj props)) ->
  (forall entries, P (JFormData entries)) ->
  forall v, P v.
Proof.
  intros HU HN HB HNum HBig HS HA HO HF.
  fix IH 1.
  intros [| |b|n|n|s|l|props|entries];
    [exact HU | exact HN | apply HB | apply HNum | apply HBig | apply HS
    | | | apply HF].
  - apply HA.
    revert l. fix IHl 1. intros [|x l]; constructor; [apply IH | apply IHl].
  - apply HO.
    revert props. fix IHl 1.
    intros [|[k x] props]; constructor; [apply IH | apply IHl].
Qed.

Lemma mapM_throw_inv {A B} (f : A -> Result B) l e :
  mapM f l = Throw e -> Exists (fun a => f a = Throw e) l.
Proof.
  induction l as [|a l IH]; simpl; [discriminate|].
  destruct (f a) as [b|e'] eqn:Ha.
  - destruct (mapM f l) as [bs|e'']; [discriminate|].
    intros [= <-]. right. now apply IH.
  - intros [= <-]. now left.
Qed.

Lemma mapM_Forall2 {A B} (f : A -> Result B) l bs :
  mapM f l = Ok bs -> Forall2 (fun a b => f a = Ok b) l bs.
Proof.
  revert bs. induction l as [|a l IH]; simpl; intros bs.
  - intros [= <-]. constructor.
  - destruct (f a) as [b|e] eqn:Ha; [|discriminate].
    destruct (mapM f l) as [bs'|e]; [|discriminate].
    intros [= <-]. constructor; [exact Ha | now apply IH].
Qed.

(** The only failure of the conversion is the TypeError of an object that
    hides [toString]. *)
Lemma ToString_throws v e : ToString v = Throw e -> e = cannot_convert.
Proof.
  revert e.
  induction v as [| |b|n|n|s|l IHl|props _|entries] using JsVal_nested_ind;
    intros e; simpl; try discriminate.
  - destruct b; discriminate.
  - destruct (mapM _ l) as [parts|e'] eqn:Hm; simpl; [discriminate|].
    intros [= <-]. apply mapM_throw_inv in Hm.
    apply Exists_exists in Hm as (a & Hin & Ha).
    rewrite Forall_forall in IHl.
    destruct a; try discriminate;
      exact (IHl _ Hin _ Ha).
  - destruct (has_own "toString" props); [|discriminate]. now intros [= <-].
Qed.

Lemma new_ApiError_ok message status data error :
  new_ApiError message status data = Ok error ->
  exists text, error = ApiError text status data.
Proof.
  unfold new_ApiError.
  destruct (match message with JUndefined => Ok "" | m => ToString m end)
    as [text|e]; simpl; [|discriminate].
  intros [= <-]. now exists text.
Qed.


Lemma new_ApiError_throws message status data e :
  new_ApiError message status data = Throw e -> e = cannot_convert.
Proof.
  unfold new_ApiError.
  destruct (match message with JUndefined => Ok "" | m => ToString m end)
    as [text|e'] eqn:Hm; simpl; [discriminate|].
  intros [= <-]. destruct message; try discriminate;
    exact (ToString_throws _ _ Hm).
Qed.

End JsFacts.
Import JsFacts.

(** ** The request executor *)

Module RequestFacts.

Section Facts.

Variable env : option string.
Variable net : string -> RequestInit -> Result Response.

Lemma prepare_unfold path o w :
  prepare env path o w =
    (w, bind (build_url env path (params o))
             (fun url =>
                bind (attach_body (body o)
                        (add_authorization (stored_token w) (initial_options o)))
                     (fun ro => Ok (url, ro)))).
Proof.
  unfold prepare, bindM, lift, getAuthToken, getItem, ret, stored_token.
  destruct (build_url env path (params o)); simpl; [|reflexivity].
  destruct (attach_body _ _); reflexivity.
Qed.

Lemma prepare_inv path o w url ro :
  snd (prepare env path o w) = Ok (url, ro) ->
  build_url env path (params o) = Ok url /\
  attach_body (body o)
    (add_authorization (stored_token w) (initial_options o)) = Ok ro.
Proof.
  rewrite prepare_unfold. simpl.
  destruct (build_url env path (params o)); simpl; [|discriminate].
  destruct (attach_body _ _); simpl; [|discriminate].
  intros [= -> ->]. now split.
Qed.

Lemma request_unfold path o w :
  request env net path o w =
    match snd (prepare env path o w) with
    | Ok p => try_catch (exchange net (fst p) (snd p)) handler w
    | Throw e => (w, Throw e)
    end.
Proof.
  unfold request, bindM. rewrite prepare_unfold. simpl.
  destruct (bind _ _); reflexivity.
Qed.

(** A throw before the [try] block leaves [request] as it is, and no
    request is sent. *)
Lemma request_prepare_throw path o w e :
  snd (prepare env path o w) = Throw e ->
  request env net path o w = (w, Throw e).
Proof. intros H. now rewrite request_unfold, H. Qed.

(** What the [catch] block throws. *)
Lemma handler_throws e w :
  handler e w =
    (w, Throw (if String.eqb (error_name e) "ApiError" then e
               else ApiError (if String.eqb (error_message e) ""
                              then "Network request failed"
                              else error_message e) 0 JNull)).
Proof.
  unfold handler, throw_new_ApiError, new_ApiError, js_or, throw. simpl.
  destruct (String.eqb (error_name e) "ApiError"); [reflexivity|].
  destruct (String.eqb (error_message e) ""); reflexivity.
Qed.

Lemma request_resolved path o w url ro r :
  snd (prepare env path o w) = Ok (url, ro) ->
  net url ro = Ok r ->
  request env net path o w =
    (after_fetch w url ro,
     if ok r then Ok (payload r)
     else match new_ApiError
                  (js_or (opt_chain (payload r) "message") (JStr (statusText r)))
                  (status r) (payload r) with
          | Ok error => Throw error
          | Throw _ => Throw conversion_failure
          end).
Proof.
  intros Hp Hn. rewrite request_unfold, Hp. simpl.
  unfold try_catch, exchange, bindM, fetch. rewrite Hn.
  destruct (ok r); [reflexivity|]. simpl.
  unfold throw_new_ApiError, payload.
  destruct (new_ApiError _ _ _) as [error|e] eqn:Hnew; unfold throw;
    rewrite handler_throws.
  - apply new_ApiError_ok in Hnew as [text ->]. reflexivity.
  - apply new_ApiError_throws in Hnew as ->. reflexivity.
Qed.

Lemma request_rejected path o w url ro e :
  snd (prepare env path o w) = Ok (url, ro) ->
  net url ro = Throw e ->
  request env net path o w =
    (after_fetch w url ro,
     Throw (if String.eqb (error_name e) "ApiError" then e
            else ApiError (if String.eqb (error_message e) ""
                           then "Network request failed"
                           else error_message e) 0 JNull)).
Proof.
  intros Hp Hn. rewrite request_unfold, Hp. simpl.
  unfold try_catch, exchange, bindM, fetch. rewrite Hn.
  apply handler_throws.
Qed.

(** Exactly the prepared request reaches [fetch]. *)
Lemma request_sends path o w url ro :
  snd (prepare env path o w) = Ok (url, ro) ->
  fst (request env net path o w) = after_fetch w url ro.
Proof.
  intros Hp. destruct (net url ro) as [r|e] eqn:Hn.
  - now rewrite (request_resolved _ _ _ _ _ _ Hp Hn).
  - now rewrite (request_rejected _ _ _ _ _ _ Hp Hn).
Qed.

(** Headers other than the content type pass through [attach_body]. *)
Lemma attach_body_headers b ro ro' k :
  attach_body b ro = Ok ro' ->
  k <> "Content-Type" ->
  req_headers ro' !! k = req_headers ro !! k.
Proof.
  unfold attach_body. intros H Hk.
  destruct (ToBoolean b); [|now inversion H].
  destruct b; simpl in H;
    try (destruct (JSON.stringify _); simpl in H; [|discriminate]);
    inversion H; subst; simpl; try reflexivity.
  now apply lookup_delete_ne.
Qed.

Lemma initial_content_type o :
  req_headers (initial_options o) !! "Content-Type" =
    Some (default "application/json" (headers o !! "Content-Type")).
Proof.
  unfold initial_options. simpl. rewrite lookup_union.
  rewrite lookup_singleton_eq.
  destruct (headers o !! "Content-Type"); reflexivity.
Qed.

Lemma initial_authorization o :
  req_headers (initial_options o) !! "Authorization" =
    headers o !! "Authorization".
Proof.
  unfold initial_options. simpl. rewrite lookup_union.
  rewrite lookup_singleton_ne by discriminate.
  destruct (headers o !! "Authorization"); reflexivity.
Qed.

Lemma add_authorization_content_type tok ro :
  req_headers (add_authorization tok ro) !! "Content-Type" =
    req_headers ro !! "Content-Type".
Proof.
  unfold add_authorization. destruct (ToBoolean tok); [|reflexivity].
  simpl. now rewrite lookup_insert_ne.
Qed.

Lemma stored_token_truthy w t :
  localStorage w !! "token" = Some t -> t <> "" ->
  stored_token w = JStr t /\ ToBoolean (stored_token w) = true.
Proof.
  intros H Ht. unfold stored_token. rewrite H. split; [reflexivity|].
  simpl. apply String.eqb_neq in Ht. now rewrite Ht.
Qed.

Lemma prepared_authorization path o w url ro t :
  localStorage w !! "token" = Some t -> t <> "" ->
  snd (prepare env path o w) = Ok (url, ro) ->
  req_headers ro !! "Authorization" = Some ("Bearer " ++ t).
Proof.
  intros Ht Hne Hp. apply prepare_inv in Hp as [_ Hb].
  rewrite (attach_body_headers _ _ _ "Authorization" Hb) by discriminate.
  destruct (stored_token_truthy _ _ Ht Hne) as [Hs Htrue].
  unfold add_authorization. rewrite Htrue, Hs. simpl.
  apply lookup_insert_eq.
Qed.

End Facts.

End RequestFacts.

(** ** The claims *)

Import URLSearchParams RequestFacts Samples.

(** C1, as amended. When the response is not ok, [request] throws an
    [ApiError]. If the payload's [message] property is falsy (missing,
    or present but empty, null, false or 0), the message is the status
    text, the status is the response's status code and the data is the
    parsed payload (null when the body was empty or not JSON). If the
    property is truthy and has a string form, the message is that string
    form, with the same status and data. If the property is truthy and has
    no string form (an object that carries a property named toString, or a
    list holding one), building the error throws inside the [try] block
    and the [catch] block replaces it: the call fails with status 0, data
    null and the message of the failed conversion. *)
Theorem request_not_ok_throws_api_error env net path o w url ro r :
  snd (prepare env path o w) = Ok (url, ro) ->
  net url ro = Ok r ->
  ok r = false ->
  (ToBoolean (opt_chain (payload r) "message") = false ->
   snd (request env net path o w)
     = Throw (ApiError (statusText r) (status r) (payload r))) /\
  (forall text,
     ToBoolean (opt_chain (payload r) "message") = true ->
     ToString (opt_chain (payload r) "message") = Ok text ->
     snd (request env net path o w)
       = Throw (ApiError text (status r) (payload r))) /\
  (forall e,
     ToBoolean (opt_chain (payload r) "message") = true ->
     ToString (opt_chain (payload r) "message") = Throw e ->
     snd (request env net path o w)
       = Throw (ApiError "Cannot convert object to primitive value" 0 JNull)).
Proof.
  intros Hp Hn Hok. rewrite (request_resolved env net _ _ _ _ _ _ Hp Hn).
  simpl. rewrite Hok. unfold js_or, new_ApiError.
  split; [|split].
  - now intros ->.
  - intros text Ht Hs. rewrite Ht.
    destruct (opt_chain (payload r) "message"); try discriminate;
      now rewrite Hs.
  - intros e Ht Hs. rewrite Ht.
    destruct (opt_chain (payload r) "message"); try discriminate;
      now rewrite Hs.
Qed.

(** The 404 response of the specification: message, status and data are
    those of the payload. *)
Lemma request_not_found_witness :
  snd (prepare None "/user/me" no_options signed_in)
    = Ok (local_url "/user/me",
          add_authorization (JStr "abc") (initial_options no_options)) /\
  ok not_found = false /\
  ToBoolean (opt_chain (payload not_found) "message") = true /\
  ToString (opt_chain (payload not_found) "message") = Ok "not found" /\
  snd (request None (answers not_found) "/user/me" no_options signed_in)
    = Throw (ApiError "not found" 404 (JObj [("message", JStr "not found")])).
Proof.
  assert (Hp : snd (prepare None "/user/me" no_options signed_in)
               = Ok (local_url "/user/me",
                     add_authorization (JStr "abc") (initial_options no_options)))
    by (vm_compute; reflexivity).
  split; [exact Hp|]. split; [reflexivity|].
  split; [reflexivity|]. split; [reflexivity|].
  exact (proj1 (proj2 (request_not_ok_throws_api_error None (answers not_found)
                         _ _ _ _ _ not_found Hp eq_refl eq_refl))
           "not found" eq_refl eq_refl).
Defined.

(** C1 as stated fails on a payload whose [message] is present and empty:
    the error's message is the status text, not the property. *)
Lemma request_empty_message_counterexample :
  ok empty_message = false /\
  get_prop (payload empty_message) "message" = JStr "" /\
  snd (request None (answers empty_message) "/user/me" no_options signed_out)
    = Throw (ApiError "Bad Request" 400 (JObj [("message", JStr "")])) /\
  "Bad Request" <> "".
Proof. repeat split; try (vm_compute; reflexivity). discriminate. Qed.

(** C2, as amended. For every failure raised inside the [try] block, that
    is by the network call: an error named ApiError is thrown again
    unchanged; any other error is replaced by an [ApiError] with status 0,
    data null and a message that is never empty, the failure's own message
    or, when that is empty, the generic one. A failure raised before the
    [try] block, while the URL is composed or the body is serialized, is
    not caught: it leaves [request] as it is and nothing is sent. *)
Theorem request_failure_handling env net path o w :
  (forall url ro e,
     snd (prepare env path o w) = Ok (url, ro) ->
     net url ro = Throw e ->
     (error_name e = "ApiError" -> snd (request env net path o w) = Throw e) /\
     (error_name e <> "ApiError" ->
      exists m,
        snd (request env net path o w) = Throw (ApiError m 0 JNull) /\
        m <> "" /\
        m = if String.eqb (error_message e) ""
            then "Network request failed" else error_message e)) /\
  (forall e,
     snd (prepare env path o w) = Throw e ->
     request env net path o w = (w, Throw e)).
Proof.
  split.
  - intros url ro e Hp Hn.
    rewrite (request_rejected env net _ _ _ _ _ _ Hp Hn). simpl.
    split; intros Hname.
    + now rewrite Hname.
    + apply String.eqb_neq in Hname. rewrite Hname.
      unfold new_ApiError, js_or. simpl.
      destruct (String.eqb (error_message e) "") eqn:Hm; simpl.
      * eexists. split; [reflexivity|]. split; [discriminate|reflexivity].
      * eexists. split; [reflexivity|]. split; [|reflexivity].
        now apply String.eqb_neq.
  - intros e. apply request_prepare_throw.
Qed.

(** A connection that cannot be made: status 0 and the browser's message. *)
Lemma request_unreachable_witness :
  snd (prepare None "/user/me" no_options signed_out)
    = Ok (local_url "/user/me", initial_options no_options) /\
  error_name (JsError "TypeError" "Failed to fetch") <> "ApiError" /\
  exists m,
    snd (request None unreachable "/user/me" no_options signed_out)
      = Throw (ApiError m 0 JNull) /\
    m <> "" /\ m = "Failed to fetch".
Proof.
  assert (Hp : snd (prepare None "/user/me" no_options signed_out)
               = Ok (local_url "/user/me", initial_options no_options))
    by (vm_compute; reflexivity).
  assert (Hname : error_name (JsError "TypeError" "Failed to fetch") <> "ApiError")
    by discriminate.
  split; [exact Hp|]. split; [exact Hname|].
  exact (proj2 (proj1 (request_failure_handling None unreachable "/user/me"
                         no_options signed_out)
                  _ _ (JsError "TypeError" "Failed to fetch") Hp eq_refl) Hname).
Defined.

(** C2 as stated fails on a failure raised before the [try] block: a body
    that [JSON.stringify] refuses leaves [request] as the TypeError it is,
    not as an ApiError, and nothing is sent. *)
Lemma request_bigint_body_counterexample :
  request None (answers created) "/payments"
    (post (JObj [("amount", JBigInt 10)])) signed_in
  = (signed_in,
     Throw (JsError "TypeError" "Do not know how to serialize a BigInt")) /\
  error_name (JsError "TypeError" "Do not know how to serialize a BigInt")
    <> "ApiError".
Proof. split; [vm_compute; reflexivity | discriminate]. Qed.

(** Appending a non-empty string changes a string. *)
Lemma append_changes (s : string) c t : s ++ String c t <> s.
Proof.
  induction s as [|a s IH]; simpl; [discriminate|].
  intros H. injection H as H. now apply IH.
Qed.

(** C3, as amended. The URL handed to [fetch] is base + path exactly when
    [params] is absent or otherwise falsy. When [params] is truthy, which an
    object or array with no entries also is, it is base + path followed by a
    question mark and the urlencoded serialization of the tuples of
    [params], and so differs from base + path (by a bare question mark when
    there are no tuples). *)
Theorem composed_url_query env path o w url ro :
  snd (prepare env path o w) = Ok (url, ro) ->
  (ToBoolean (params o) = false -> url = API_BASE env ++ path) /\
  (ToBoolean (params o) = true ->
   exists l,
     URLSearchParams.new (params o) = Ok l /\
     url = (API_BASE env ++ path) ++ "?" ++ URLSearchParams.serialize l /\
     url <> API_BASE env ++ path).
Proof.
  intros Hp. apply prepare_inv in Hp as [Hu _]. unfold build_url in Hu.
  split; intros Ht; rewrite Ht in Hu.
  - now inversion Hu.
  - destruct (URLSearchParams.new (params o)) as [l|e]; simpl in Hu;
      [|discriminate].
    exists l. inversion Hu. split; [reflexivity|]. split; [reflexivity|].
    apply append_changes.
Qed.

(** A filter object with two entries. *)
Lemma composed_url_query_witness :
  snd (prepare None "/reservations"
         {| method := None; body := JUndefined;
            params := JObj [("status", JStr "confirmed"); ("page", JNum 2)];
            headers := ∅; options := [] |} signed_out)
    = Ok ("http://127.0.0.1:5000/api/reservations?status=confirmed&page=2",
          initial_options no_options) /\
  exists l,
    URLSearchParams.new (JObj [("status", JStr "confirmed"); ("page", JNum 2)])
      = Ok l /\
    "http://127.0.0.1:5000/api/reservations?status=confirmed&page=2"
      = (API_BASE None ++ "/reservations") ++ "?" ++ URLSearchParams.serialize l /\
    "http://127.0.0.1:5000/api/reservations?status=confirmed&page=2"
      <> API_BASE None ++ "/reservations".
Proof.
  assert (Hp : snd (prepare None "/reservations"
                      {| method := None; body := JUndefined;
                         params := JObj [("status", JStr "confirmed"); ("page", JNum 2)];
                         headers := ∅; options := [] |} signed_out)
               = Ok ("http://127.0.0.1:5000/api/reservations?status=confirmed&page=2",
                     initial_options no_options))
    by (vm_compute; reflexivity).
  split; [exact Hp|].
  exact (proj2 (composed_url_query None _ _ _ _ _ Hp) eq_refl).
Defined.

(** C3 as stated fails on an empty filter object: it carries no key-value
    pair, and the URL handed to [fetch] still ends in a question mark. *)
Lemma empty_params_counterexample :
  URLSearchParams.new (JObj []) = Ok [] /\
  map fst (sent (fst (reservation_getAll None (answers created) (JObj [])
                        signed_out)))
    = ["http://127.0.0.1:5000/api/reservations?"] /\
  "http://127.0.0.1:5000/api/reservations?" <> local_url "/reservations".
Proof. repeat split; try (vm_compute; reflexivity). discriminate. Qed.

(** C4, as amended. When [params] is truthy and accepted by the
    URLSearchParams constructor, the URL is base + path, a question mark and
    a query string whose decoding gives back, in order, the tuples the
    constructor holds. For an object these are its properties with every
    value in its string form: a value that is a string comes back as it
    was, any other value comes back as the string it converts to. *)
Theorem query_string_round_trip env path p l :
  ToBoolean p = true ->
  URLSearchParams.new p = Ok l ->
  exists q,
    build_url env path p = Ok ((API_BASE env ++ path) ++ "?" ++ q) /\
    URLSearchParams.parse q = l /\
    (forall props, p = JObj props ->
       Forall2 (fun kv t => fst t = fst kv /\ ToString (snd kv) = Ok (snd t))
         props l).
Proof.
  intros Ht Hl. exists (URLSearchParams.serialize l). split; [|split].
  - unfold build_url. now rewrite Ht, Hl.
  - apply URLFacts.parse_serialize.
  - intros props ->. simpl in Hl. apply mapM_Forall2 in Hl.
    eapply Forall2_impl; [exact Hl|]. simpl. intros kv t H.
    destruct (ToString (snd kv)) as [text|e]; simpl in H; [|discriminate].
    injection H as <-. now split.
Qed.

(** A search with reserved characters in it. *)
Lemma query_string_round_trip_witness :
  ToBoolean (JObj [("q", JStr "fish & chips"); ("tag", JStr "a=b")]) = true /\
  exists q,
    build_url None "/menu/items"
      (JObj [("q", JStr "fish & chips"); ("tag", JStr "a=b")])
      = Ok ((API_BASE None ++ "/menu/items") ++ "?" ++ q) /\
    URLSearchParams.parse q = [("q", "fish & chips"); ("tag", "a=b")] /\
    (forall props,
       JObj [("q", JStr "fish & chips"); ("tag", JStr "a=b")] = JObj props ->
       Forall2 (fun kv t => fst t = fst kv /\ ToString (snd kv) = Ok (snd t))
         props [("q", "fish & chips"); ("tag", "a=b")]).
Proof.
  split; [reflexivity|].
  exact (query_string_round_trip None "/menu/items"
           (JObj [("q", JStr "fish & chips"); ("tag", JStr "a=b")])
           [("q", "fish & chips"); ("tag", "a=b")] eq_refl eq_refl).
Defined.

(** C4 as stated fails on a value that is not a string: a list of tags is
    sent as one comma-separated string, and decoding the query gives that
    string, not the list. *)
Lemma array_param_counterexample :
  build_url None "/menu/items" (JObj [("tags", JArr [JStr "vegan"; JStr "spicy"])])
    = Ok "http://127.0.0.1:5000/api/menu/items?tags=vegan%2Cspicy" /\
  URLSearchParams.parse "tags=vegan%2Cspicy" = [("tags", "vegan,spicy")] /\
  JStr "vegan,spicy" <> JArr [JStr "vegan"; JStr "spicy"].
Proof. repeat split; try (vm_compute; reflexivity). discriminate. Qed.

(** C5, as amended. If a non-empty token is stored, the final request
    carries Authorization: Bearer followed by that token. If no token is
    stored, or the stored string is empty, [request] adds no Authorization
    header: the final request has exactly the one the caller's headers
    supplied, and none when the caller supplied none. *)
Theorem authorization_follows_token env path o w url ro :
  snd (prepare env path o w) = Ok (url, ro) ->
  (forall t, localStorage w !! "token" = Some t -> t <> "" ->
     req_headers ro !! "Authorization" = Some ("Bearer " ++ t)) /\
  (localStorage w !! "token" = None \/ localStorage w !! "token" = Some "" ->
     req_headers ro !! "Authorization" = headers o !! "Authorization").
Proof.
  intros Hp. split.
  - intros t Ht Hne. exact (prepared_authorization env _ _ _ _ _ _ Ht Hne Hp).
  - intros Hnone. apply prepare_inv in Hp as [_ Hb].
    rewrite (attach_body_headers _ _ _ "Authorization" Hb) by discriminate.
    assert (Hfalse : ToBoolean (stored_token w) = false)
      by (unfold stored_token; destruct Hnone as [-> | ->]; reflexivity).
    unfold add_authorization. rewrite Hfalse. apply initial_authorization.
Qed.

(** A signed-in session, and no header from the caller. *)
Lemma authorization_follows_token_witness :
  snd (prepare None "/user/me" no_options signed_in)
    = Ok (local_url "/user/me",
          add_authorization (JStr "abc") (initial_options no_options)) /\
  localStorage signed_in !! "token" = Some "abc" /\
  req_headers (add_authorization (JStr "abc") (initial_options no_options))
    !! "Authorization" = Some "Bearer abc".
Proof.
  assert (Hp : snd (prepare None "/user/me" no_options signed_in)
               = Ok (local_url "/user/me",
                     add_authorization (JStr "abc") (initial_options no_options)))
    by (vm_compute; reflexivity).
  assert (Ht : localStorage signed_in !! "token" = Some "abc")
    by (vm_compute; reflexivity).
  split; [exact Hp|]. split; [exact Ht|].
  refine (proj1 (authorization_follows_token None _ _ _ _ _ Hp) "abc" Ht _).
  discriminate.
Defined.

(** C5 as stated fails when no token is stored and the caller passes an
    Authorization header of its own: the final request carries it. *)
Lemma caller_authorization_counterexample :
  localStorage signed_out !! "token" = None /\
  snd (prepare None "/user/me"
         (with_headers {["Authorization" := "Basic dXNlcjpwdw=="]}) signed_out)
    = Ok (local_url "/user/me",
          initial_options (with_headers {["Authorization" := "Basic dXNlcjpwdw=="]})) /\
  req_headers
    (initial_options (with_headers {["Authorization" := "Basic dXNlcjpwdw=="]}))
    !! "Authorization" = Some "Basic dXNlcjpwdw==".
Proof. repeat split; vm_compute; reflexivity. Qed.

(** The only value [JSON.stringify] turns into undefined is undefined. *)
Lemma serialize_undefined v :
  JSON.SerializeJSONProperty v = Ok None -> v = JUndefined.
Proof.
  destruct v as [| |[]|n|n|s|l|l|l]; simpl; try discriminate; try reflexivity.
  - destruct (mapM _ l); discriminate.
  - destruct (mapM _ l); discriminate.
Qed.

Lemma stringify_truthy b text :
  ToBoolean b = true -> JSON.stringify b = Ok text -> exists s, text = JStr s.
Proof.
  unfold JSON.stringify. intros Ht H.
  destruct (JSON.SerializeJSONProperty b) as [[s|]|e] eqn:Hs; simpl in H;
    try discriminate.
  - inversion H. now exists s.
  - apply serialize_undefined in Hs. subst b. discriminate.
Qed.

(** C6, as amended. A FormData body is sent as it is and the final request
    has no Content-Type header. Any other body is sent, as its JSON text,
    only when it is truthy; a falsy one (undefined, null, false, 0, the
    empty string) is not sent at all. In both of these cases the final
    request carries the caller's Content-Type when the caller's headers have
    one, and application/json otherwise. *)
Theorem body_and_content_type env path o w url ro :
  snd (prepare env path o w) = Ok (url, ro) ->
  match body o with
  | JFormData _ =>
      req_body ro = Some (body o) /\ req_headers ro !! "Content-Type" = None
  | b =>
      (if ToBoolean b
       then exists s, JSON.stringify b = Ok (JStr s) /\ req_body ro = Some (JStr s)
       else req_body ro = None) /\
      req_headers ro !! "Content-Type"
        = Some (default "application/json" (headers o !! "Content-Type"))
  end.
Proof.
  intros Hp. apply prepare_inv in Hp as [_ Hb].
  pose proof (add_authorization_content_type (stored_token w) (initial_options o)) as Hct.
  rewrite initial_content_type in Hct.
  set (ro0 := add_authorization (stored_token w) (initial_options o)) in *.
  assert (Hjson : forall b, body o = b ->
            match b with JFormData _ => False | _ => True end ->
            (if ToBoolean b
             then exists s, JSON.stringify b = Ok (JStr s) /\ req_body ro = Some (JStr s)
             else req_body ro = None) /\
            req_headers ro !! "Content-Type"
              = Some (default "application/json" (headers o !! "Content-Type"))).
  { intros b Hbody Hnf. rewrite Hbody in Hb. unfold attach_body in Hb.
    destruct (ToBoolean b) eqn:Ht.
    - assert (Hs : bind (JSON.stringify b)
                     (fun text => Ok {| req_method := req_method ro0;
                                        req_headers := req_headers ro0;
                                        req_options := req_options ro0;
                                        req_body := Some text |}) = Ok ro)
        by (destruct b; solve [exact Hb | contradiction]).
      destruct (JSON.stringify b) as [text|e] eqn:Hstr; simpl in Hs; [|discriminate].
      destruct (stringify_truthy _ _ Ht Hstr) as [s ->].
      inversion Hs; subst ro; simpl. split; [|exact Hct].
      exists s. now split.
    - inversion Hb; subst ro. split; [|exact Hct].
      unfold ro0, add_authorization. now destruct (ToBoolean (stored_token w)). }
  destruct (body o) as [| |b|n|n|s|l|l|l] eqn:Hbody;
    try (exact (Hjson _ eq_refl I)).
  simpl in Hb. inversion Hb; subst ro; simpl. split; [reflexivity|].
  apply lookup_delete_eq.
Qed.

(** The avatar upload: the form data goes out untouched and the transport
    is left to set the content type. *)
Lemma body_and_content_type_witness :
  snd (prepare None "/user/avatar" (post (JFormData [("avatar", "PNG")])) signed_in)
    = Ok (local_url "/user/avatar",
          {| req_method := "POST";
             req_headers := {["Authorization" := "Bearer abc"]};
             req_options := [];
             req_body := Some (JFormData [("avatar", "PNG")]) |}) /\
  req_body {| req_method := "POST";
              req_headers := {["Authorization" := "Bearer abc"]};
              req_options := [];
              req_body := Some (JFormData [("avatar", "PNG")]) |}
    = Some (JFormData [("avatar", "PNG")]) /\
  ({["Authorization" := "Bearer abc"]} : gmap string string) !! "Content-Type" = None.
Proof.
  assert (Hp : snd (prepare None "/user/avatar"
                      (post (JFormData [("avatar", "PNG")])) signed_in)
               = Ok (local_url "/user/avatar",
                     {| req_method := "POST";
                        req_headers := {["Authorization" := "Bearer abc"]};
                        req_options := [];
                        req_body := Some (JFormData [("avatar", "PNG")]) |}))
    by (vm_compute; reflexivity).
  split; [exact Hp|].
  exact (body_and_content_type None _ _ _ _ _ Hp).
Defined.

(** C6 as stated fails on a body that is present and falsy: a payment
    adjustment of 0 has the JSON text 0, and the request goes out with no
    body. *)
Lemma zero_body_counterexample :
  JSON.stringify (JNum 0) = Ok (JStr "0") /\
  map (fun p => (fst p, req_method (snd p), req_body (snd p)))
      (sent (fst (payment_adjust None (answers created) (JNum 3) (JNum 0)
                    signed_in)))
    = [("http://127.0.0.1:5000/api/payments/3/adjust", "POST", None)].
Proof. split; vm_compute; reflexivity. Qed.

(** C7. A response with an ok status whose body is empty or is not JSON
    makes [request] return null; nothing is thrown. *)
Theorem request_ok_without_json env net path o w url ro r :
  snd (prepare env path o w) = Ok (url, ro) ->
  net url ro = Ok r ->
  ok r = true ->
  json r = None ->
  snd (request env net path o w) = Ok JNull.
Proof.
  intros Hp Hn Hok Hjson. rewrite (request_resolved env net _ _ _ _ _ _ Hp Hn).
  simpl. rewrite Hok. unfold payload. now rewrite Hjson.
Qed.

(** Status 204 with an empty body. *)
Lemma request_no_content_witness :
  snd (prepare None "/notifications/4" no_options signed_in)
    = Ok (local_url "/notifications/4",
          add_authorization (JStr "abc") (initial_options no_options)) /\
  ok no_content = true /\
  json no_content = None /\
  snd (request None (answers no_content) "/notifications/4" no_options signed_in)
    = Ok JNull.
Proof.
  assert (Hp : snd (prepare None "/notifications/4" no_options signed_in)
               = Ok (local_url "/notifications/4",
                     add_authorization (JStr "abc") (initial_options no_options)))
    by (vm_compute; reflexivity).
  split; [exact Hp|]. split; [reflexivity|]. split; [reflexivity|].
  exact (request_ok_without_json None (answers no_content) _ _ _ _ _
           no_content Hp eq_refl eq_refl eq_refl).
Defined.

(** C8. [auth.logout] removes the token first and then runs [request] in
    the world without it: whatever the network does, the token is gone
    afterwards, and the one request that was sent, built after the removal,
    has the default headers only. *)
Theorem logout_clears_token_first env net w :
  auth_logout env net w
    = request env net "/auth/logout" no_options
        {| localStorage := delete "token" (localStorage w); sent := sent w |} /\
  localStorage (fst (auth_logout env net w)) !! "token" = None /\
  sent (fst (auth_logout env net w))
    = sent (after_fetch {| localStorage := delete "token" (localStorage w);
                           sent := sent w |}
              (API_BASE env ++ "/auth/logout") (initial_options no_options)) /\
  req_headers (initial_options no_options) !! "Authorization" = None.
Proof.
  set (cleared := {| localStorage := delete "token" (localStorage w);
                     sent := sent w |}).
  assert (Hrun : auth_logout env net w
                 = request env net "/auth/logout" no_options cleared)
    by reflexivity.
  assert (Hp : snd (prepare env "/auth/logout" no_options cleared)
               = Ok (API_BASE env ++ "/auth/logout", initial_options no_options)).
  { rewrite prepare_unfold. simpl. unfold build_url, stored_token. simpl.
    now rewrite lookup_delete_eq. }
  split; [exact Hrun|]. rewrite Hrun.
  rewrite (request_sends env net _ _ _ _ _ Hp).
  split; [unfold after_fetch, cleared; simpl; apply lookup_delete_eq|].
  split; [reflexivity|].
  rewrite initial_authorization. apply lookup_empty.
Qed.

(** C9. A body that is falsy (0, the empty string, false, null) is left
    out: the prepared request has no body, and the whole call behaves as the
    same call with no body supplied. *)
Theorem falsy_body_is_not_sent env net path o w :
  ToBoolean (body o) = false ->
  request env net path o w = request env net path (with_body JUndefined o) w /\
  (forall url ro, snd (prepare env path o w) = Ok (url, ro) -> req_body ro = None).
Proof.
  intros Hf.
  assert (Hprep : prepare env path o w = prepare env path (with_body JUndefined o) w).
  { rewrite !prepare_unfold. unfold attach_body. rewrite Hf. reflexivity. }
  split.
  - rewrite !request_unfold. now rewrite Hprep.
  - intros url ro Hp. apply prepare_inv in Hp as [_ Hb].
    unfold attach_body in Hb. rewrite Hf in Hb. inversion Hb.
    unfold add_authorization. now destruct (ToBoolean (stored_token w)).
Qed.

(** The number 0 as a body. *)
Lemma falsy_body_is_not_sent_witness :
  ToBoolean (body (post (JNum 0))) = false /\
  request None (answers created) "/payments/3/adjust" (post (JNum 0)) signed_in
    = request None (answers created) "/payments/3/adjust"
        (with_body JUndefined (post (JNum 0))) signed_in /\
  (forall url ro,
     snd (prepare None "/payments/3/adjust" (post (JNum 0)) signed_in)
       = Ok (url, ro) -> req_body ro = None).
Proof.
  split; [reflexivity|].
  exact (falsy_body_is_not_sent None (answers created) "/payments/3/adjust"
           (post (JNum 0)) signed_in eq_refl).
Defined.

(** C10, as amended. While a non-empty token is stored, the final request's
    Authorization header is Bearer followed by the stored token, whatever
    Authorization value the caller's headers carry: the stored token is
    written after the caller's headers are merged. *)
Theorem stored_token_overrides_caller env path o w url ro t :
  localStorage w !! "token" = Some t ->
  t <> "" ->
  snd (prepare env path o w) = Ok (url, ro) ->
  req_headers ro !! "Authorization" = Some ("Bearer " ++ t) /\
  req_headers (initial_options o) !! "Authorization" = headers o !! "Authorization".
Proof.
  intros Ht Hne Hp. split.
  - exact (prepared_authorization env _ _ _ _ _ _ Ht Hne Hp).
  - apply initial_authorization.
Qed.

(** The caller asks for another scheme; the stored token wins. *)
Lemma stored_token_overrides_caller_witness :
  localStorage signed_in !! "token" = Some "abc" /\
  "abc" <> "" /\
  snd (prepare None "/user/me"
         (with_headers {["Authorization" := "Basic dXNlcjpwdw=="]}) signed_in)
    = Ok (local_url "/user/me",
          add_authorization (JStr "abc")
            (initial_options (with_headers {["Authorization" := "Basic dXNlcjpwdw=="]}))) /\
  headers (with_headers {["Authorization" := "Basic dXNlcjpwdw=="]})
    !! "Authorization" = Some "Basic dXNlcjpwdw==" /\
  req_headers
    (add_authorization (JStr "abc")
       (initial_options (with_headers {["Authorization" := "Basic dXNlcjpwdw=="]})))
    !! "Authorization" = Some "Bearer abc".
Proof.
  assert (Ht : localStorage signed_in !! "token" = Some "abc")
    by (vm_compute; reflexivity).
  assert (Hne : "abc" <> "") by discriminate.
  assert (Hp : snd (prepare None "/user/me"
                      (with_headers {["Authorization" := "Basic dXNlcjpwdw=="]})
                      signed_in)
               = Ok (local_url "/user/me",
                     add_authorization (JStr "abc")
                       (initial_options
                          (with_headers {["Authorization" := "Basic dXNlcjpwdw=="]}))))
    by (vm_compute; reflexivity).
  split; [exact Ht|]. split; [exact Hne|]. split; [exact Hp|].
  split; [vm_compute; reflexivity|].
  exact (proj1 (stored_token_overrides_caller None _ _ _ _ _ "abc" Ht Hne Hp)).
Defined.

(** C10 as stated fails when the stored token is the empty string: the
    guard on the token does not fire, and the caller's Authorization value
    is the one that goes out. *)
Lemma empty_token_counterexample :
  localStorage empty_token !! "token" = Some "" /\
  snd (prepare None "/user/me"
         (with_headers {["Authorization" := "Basic dXNlcjpwdw=="]}) empty_token)
    = Ok (local_url "/user/me",
          initial_options (with_headers {["Authorization" := "Basic dXNlcjpwdw=="]})) /\
  req_headers
    (initial_options (with_headers {["Authorization" := "Basic dXNlcjpwdw=="]}))
    !! "Authorization" = Some "Basic dXNlcjpwdw==" /\
  "Basic dXNlcjpwdw==" <> "Bearer " ++ "".
Proof. repeat split; try (vm_compute; reflexivity). discriminate. Qed.

(** ** Further checks *)

(** Logging out with the network down: the token is gone, the call fails
    with status 0. *)
Example logout_offline :
  auth_logout None unreachable signed_in
  = (after_fetch signed_out (local_url "/auth/logout") (initial_options no_options),
     Throw (ApiError "Failed to fetch" 0 JNull)).
Proof. vm_compute. reflexivity. Qed.

(** The avatar upload as it reaches [fetch]. *)
Example upload_avatar_request :
  sent (fst (user_uploadAvatar None (answers created) "PNG" signed_in))
  = [(local_url "/user/avatar",
      {| req_method := "POST";
         req_headers := {["Authorization" := "Bearer abc"]};
         req_options := [];
         req_body := Some (JFormData [("avatar", "PNG")]) |})].
Proof. vm_compute. reflexivity. Qed.

(** A payload whose [message] is an object that hides [toString]: the
    error is built inside the [try] block, the conversion throws there, and
    the [catch] block answers with status 0. *)
Example unconvertible_message :
  snd (request None
         (answers {| status := 400; statusText := "Bad Request";
                     json := Some (JObj [("message",
                                          JObj [("toString", JNum 1)])]) |})
         "/user/me" no_options signed_out)
  = Throw (ApiError "Cannot convert object to primitive value" 0 JNull).
Proof. vm_compute. reflexivity. Qed.

(** A sequence initializer whose element is a string is refused, and
    nothing is sent. *)
Example string_pair_is_refused :
  reservation_getAll None (answers created) (JArr [JStr "ab"]) signed_out
  = (signed_out, Throw not_a_sequence).
Proof. vm_compute. reflexivity. Qed.

(** The token store: what was set is read back, and nothing is read after
    a clear. *)
Lemma set_then_get token text w :
  ToString token = Ok text ->
  snd ((run setAuthToken token ;; getAuthToken) w) = Ok (JStr text).
Proof.
  intros Hs. unfold bindM, setAuthToken, setItem, getAuthToken, getItem.
  rewrite Hs. simpl. now rewrite lookup_insert_eq.
Qed.

Lemma clear_then_get w :
  snd ((run clearAuthToken ;; getAuthToken) w) = Ok JNull.
Proof.
  unfold bindM, clearAuthToken, removeItem, getAuthToken, getItem. simpl.
  now rewrite lookup_delete_eq.
Qed.

(** A successful call returns the parsed payload. *)
Lemma request_ok_returns_payload env net path o w url ro r :
  snd (prepare env path o w) = Ok (url, ro) ->
  net url ro = Ok r ->
  ok r = true ->
  snd (request env net path o w) = Ok (payload r).
Proof.
  intros Hp Hn Hok. rewrite (request_resolved env net _ _ _ _ _ _ Hp Hn).
  simpl. now rewrite Hok.
Qed.

(** ** Further properties of the service layer *)

(** The world [request] leaves behind: one more request handed to [fetch]
    when the preparation succeeded, the same world when it threw. *)
Lemma request_world env net path o w :
  fst (request env net path o w) =
    match snd (prepare env path o w) with
    | Ok p => after_fetch w (fst p) (snd p)
    | Throw _ => w
    end.
Proof.
  destruct (snd (prepare env path o w)) as [[url ro]|e] eqn:Hp.
  - exact (request_sends env net _ _ _ _ _ Hp).
  - now rewrite (request_prepare_throw env net _ _ _ _ Hp).
Qed.

(** X1. [request] only reads the token store: whatever the options, the
    network and the outcome, local storage is afterwards what it was. *)
Theorem request_keeps_storage env net path o w :
  localStorage (fst (request env net path o w)) = localStorage w.
Proof.
  rewrite request_world.
  now destruct (snd (prepare env path o w)) as [[url ro]|e].
Qed.

(** X2. One call hands at most one request to [fetch], whatever the network
    answers (no retry): exactly the prepared one when the preparation
    succeeded, none when it threw. *)
Theorem request_fetches_at_most_once env net path o w :
  sent (fst (request env net path o w)) =
    match snd (prepare env path o w) with
    | Ok p => (sent w ++ [p])%list
    | Throw _ => sent w
    end.
Proof.
  rewrite request_world.
  now destruct (snd (prepare env path o w)) as [[url ro]|e].
Qed.

(** X3. Two worlds that hold the same value under the key token give the
    same prepared request and the same outcome: of the browser state,
    [request] reads the token and nothing else. *)
Theorem request_reads_only_token env net path o w1 w2 :
  localStorage w1 !! "token" = localStorage w2 !! "token" ->
  snd (prepare env path o w1) = snd (prepare env path o w2) /\
  snd (request env net path o w1) = snd (request env net path o w2).
Proof.
  intros Htok.
  assert (Hprep : snd (prepare env path o w1) = snd (prepare env path o w2)).
  { rewrite !prepare_unfold. simpl. unfold stored_token. now rewrite Htok. }
  split; [exact Hprep|].
  destruct (snd (prepare env path o w2)) as [[url ro]|e] eqn:Hp2.
  - destruct (net url ro) as [r|e] eqn:Hn.
    + rewrite (request_resolved env net _ _ _ _ _ _ Hprep Hn).
      now rewrite (request_resolved env net _ _ _ _ _ _ Hp2 Hn).
    + rewrite (request_rejected env net _ _ _ _ _ _ Hprep Hn).
      now rewrite (request_rejected env net _ _ _ _ _ _ Hp2 Hn).
  - rewrite (request_prepare_throw env net _ _ _ _ Hprep).
    now rewrite (request_prepare_throw env net _ _ _ _ Hp2).
Qed.

(** The same session with an unrelated key stored and a request already
    sent. *)
Lemma request_reads_only_token_witness :
  localStorage signed_in !! "token"
    = localStorage (after_fetch (with_item "theme" "dark" signed_in)
                      "http://127.0.0.1:5000/api/user/me"
                      (initial_options no_options)) !! "token" /\
  snd (request None (answers created) "/payments" (post (JObj [("amount", JNum 5)]))
         signed_in)
    = snd (request None (answers created) "/payments"
             (post (JObj [("amount", JNum 5)]))
             (after_fetch (with_item "theme" "dark" signed_in)
                "http://127.0.0.1:5000/api/user/me"
                (initial_options no_options))).
Proof.
  assert (Ht : localStorage signed_in !! "token"
               = localStorage (after_fetch (with_item "theme" "dark" signed_in)
                                 "http://127.0.0.1:5000/api/user/me"
                                 (initial_options no_options)) !! "token")
    by (vm_compute; reflexivity).
  split; [exact Ht|].
  exact (proj2 (request_reads_only_token None (answers created) "/payments"
                  (post (JObj [("amount", JNum 5)])) _ _ Ht)).
Defined.

(** X4. Once the request has been handed to [fetch], the call ends in one
    of two ways only: it returns the parsed payload of a response whose
    status is ok, or it throws an error named ApiError. *)
Theorem request_returns_payload_or_api_error env net path o w url ro :
  snd (prepare env path o w) = Ok (url, ro) ->
  (exists r, net url ro = Ok r /\ ok r = true /\
             snd (request env net path o w) = Ok (payload r)) \/
  (exists e, snd (request env net path o w) = Throw e /\
             error_name e = "ApiError").
Proof.
  intros Hp. destruct (net url ro) as [r|e] eqn:Hn.
  - rewrite (request_resolved env net _ _ _ _ _ _ Hp Hn). simpl.
    destruct (ok r) eqn:Hok.
    + left. exists r. now repeat split.
    + right. destruct (new_ApiError _ _ _) as [error|e] eqn:Hnew.
      * apply new_ApiError_ok in Hnew as [text ->].
        eexists. split; reflexivity.
      * eexists. split; reflexivity.
  - rewrite (request_rejected env net _ _ _ _ _ _ Hp Hn). simpl.
    right. destruct (String.eqb (error_name e) "ApiError") eqn:Hname.
    + exists e. split; [reflexivity|]. now apply String.eqb_eq.
    + eexists. split; reflexivity.
Qed.

(** A created resource: the payload comes back. *)
Lemma request_returns_payload_or_api_error_witness :
  snd (prepare None "/user/me" no_options signed_out)
    = Ok (local_url "/user/me", initial_options no_options) /\
  ((exists r, answers created (local_url "/user/me") (initial_options no_options)
                = Ok r /\
              ok r = true /\
              snd (request None (answers created) "/user/me" no_options signed_out)
                = Ok (payload r)) \/
   (exists e, snd (request None (answers created) "/user/me" no_options signed_out)
                = Throw e /\
              error_name e = "ApiError")).
Proof.
  assert (Hp : snd (prepare None "/user/me" no_options signed_out)
               = Ok (local_url "/user/me", initial_options no_options))
    by (vm_compute; reflexivity).
  split; [exact Hp|].
  exact (request_returns_payload_or_api_error None (answers created) _ _ _ _ _ Hp).
Defined.



(** Method and pass-through options survive the two steps that edit the
    request. *)
Lemma add_authorization_keeps tok ro :
  req_method (add_authorization tok ro) = req_method ro /\
  req_options (add_authorization tok ro) = req_options ro /\
  req_body (add_authorization tok ro) = req_body ro.
Proof. unfold add_authorization. now destruct (ToBoolean tok). Qed.

Lemma attach_body_keeps b ro ro' :
  attach_body b ro = Ok ro' ->
  req_method ro' = req_method ro /\ req_options ro' = req_options ro.
Proof.
  unfold attach_body. intros H.
  destruct (ToBoolean b); [|now inversion H].
  destruct b; simpl in H;
    try (destruct (JSON.stringify _); simpl in H; [|discriminate]);
    inversion H; now subst.
Qed.

(** X6. Apart from Content-Type and Authorization, the request handed to
    [fetch] is the caller's: every other header is present exactly when the
    caller passed it, with the caller's value; the method is the caller's,
    GET when none was given; the remaining options are passed on as they
    are. *)
Theorem caller_options_pass_through env path o w url ro :
  snd (prepare env path o w) = Ok (url, ro) ->
  (forall k, k <> "Content-Type" -> k <> "Authorization" ->
     req_headers ro !! k = headers o !! k) /\
  req_method ro = default "GET" (method o) /\
  req_options ro = options o.
Proof.
  intros Hp. apply prepare_inv in Hp as [_ Hb].
  destruct (attach_body_keeps _ _ _ Hb) as [Hm Ho].
  destruct (add_authorization_keeps (stored_token w) (initial_options o))
    as (Hm' & Ho' & _).
  split; [|split].
  - intros k Hct Hauth.
    rewrite (attach_body_headers _ _ _ k Hb Hct).
    unfold add_authorization.
    destruct (ToBoolean (stored_token w)); simpl.
    + rewrite lookup_insert_ne by congruence.
      rewrite lookup_union, lookup_singleton_ne by congruence.
      now destruct (headers o !! k).
    + rewrite lookup_union, lookup_singleton_ne by congruence.
      now destruct (headers o !! k).
  - now rewrite Hm, Hm'.
  - now rewrite Ho, Ho'.
Qed.

(** A request with a header of the caller's and a transport option. *)
Lemma caller_options_pass_through_witness :
  snd (prepare None "/menu/items"
         {| method := Some "DELETE"; body := JUndefined; params := JUndefined;
            headers := {["X-Request-Id" := "r1"]};
            options := [("credentials", JStr "include")] |} signed_in)
    = Ok (local_url "/menu/items",
          {| req_method := "DELETE";
             req_headers := {["X-Request-Id" := "r1";
                              "Content-Type" := "application/json";
                              "Authorization" := "Bearer abc"]};
             req_options := [("credentials", JStr "include")];
             req_body := None |}) /\
  (forall k, k <> "Content-Type" -> k <> "Authorization" ->
     ({["X-Request-Id" := "r1"; "Content-Type" := "application/json";
        "Authorization" := "Bearer abc"]} : gmap string string) !! k
     = ({["X-Request-Id" := "r1"]} : gmap string string) !! k) /\
  "DELETE" = default "GET" (Some "DELETE") /\
  [("credentials", JStr "include")] = [("credentials", JStr "include")].
Proof.
  assert (Hp : snd (prepare None "/menu/items"
                      {| method := Some "DELETE"; body := JUndefined;
                         params := JUndefined;
                         headers := {["X-Request-Id" := "r1"]};
                         options := [("credentials", JStr "include")] |} signed_in)
               = Ok (local_url "/menu/items",
                     {| req_method := "DELETE";
                        req_headers := {["X-Request-Id" := "r1";
                                         "Content-Type" := "application/json";
                                         "Authorization" := "Bearer abc"]};
                        req_options := [("credentials", JStr "include")];
                        req_body := None |}))
    by (vm_compute; reflexivity).
  split; [exact Hp|].
  exact (caller_options_pass_through None _ _ _ _ _ Hp).
Defined.

(** X7. What [setAuthToken] stores is the string form of its argument, and
    the next request sends that string: after [setAuthToken(token)], when
    the string form is not empty, the Authorization header is Bearer
    followed by it. A token that is undefined is sent as the word
    undefined. *)
Theorem token_set_then_sent env path o w token text url ro :
  ToString token = Ok text ->
  text <> "" ->
  snd (prepare env path o (fst (setAuthToken token w))) = Ok (url, ro) ->
  req_headers ro !! "Authorization" = Some ("Bearer " ++ text).
Proof.
  intros Hs Hne Hp.
  refine (prepared_authorization env _ _ _ _ _ text _ Hne Hp).
  unfold setAuthToken, setItem. rewrite Hs. simpl. apply lookup_insert_eq.
Qed.

(** A login response without a token, stored all the same. *)
Lemma token_set_then_sent_witness :
  ToString JUndefined = Ok "undefined" /\
  "undefined" <> "" /\
  snd (prepare None "/user/me" no_options (fst (setAuthToken JUndefined signed_out)))
    = Ok (local_url "/user/me",
          add_authorization (JStr "undefined") (initial_options no_options)) /\
  req_headers (add_authorization (JStr "undefined") (initial_options no_options))
    !! "Authorization" = Some "Bearer undefined".
Proof.
  assert (Hne : "undefined" <> "") by discriminate.
  assert (Hp : snd (prepare None "/user/me" no_options
                      (fst (setAuthToken JUndefined signed_out)))
               = Ok (local_url "/user/me",
                     add_authorization (JStr "undefined")
                       (initial_options no_options)))
    by (vm_compute; reflexivity).
  split; [reflexivity|]. split; [exact Hne|]. split; [exact Hp|].
  exact (token_set_then_sent None _ _ signed_out JUndefined "undefined" _ _
           eq_refl Hne Hp).
Defined.

(** X8. The token store keeps one value: a token set after another
    replaces it (reading gives the string form of the last one, and setting
    a token that has no string form throws its conversion failure), a token
    read after a clear is null whatever was set before, and clearing twice
    is clearing once. *)
Theorem token_store_keeps_last_write t1 t2 w :
  snd ((run setAuthToken t2 ;; getAuthToken) (fst (setAuthToken t1 w)))
    = bind (ToString t2) (fun text => Ok (JStr text)) /\
  snd ((run clearAuthToken ;; getAuthToken) (fst (setAuthToken t1 w)))
    = Ok JNull /\
  fst ((run clearAuthToken ;; clearAuthToken) w) = fst (clearAuthToken w).
Proof.
  unfold bindM, setAuthToken, setItem, clearAuthToken, removeItem,
    getAuthToken, getItem. split; [|split].
  - destruct (ToString t1); destruct (ToString t2); simpl;
      try reflexivity; now rewrite lookup_insert_eq.
  - destruct (ToString t1); simpl; now rewrite lookup_delete_eq.
  - simpl. f_equal. apply delete_delete_eq.
Qed.

(** X9. The token utilities and [auth.logout] touch the key token only:
    every other key of local storage keeps its value. *)
Theorem other_keys_untouched env net token k w :
  k <> "token" ->
  localStorage (fst (setAuthToken token w)) !! k = localStorage w !! k /\
  localStorage (fst (clearAuthToken w)) !! k = localStorage w !! k /\
  localStorage (fst (auth_logout env net w)) !! k = localStorage w !! k.
Proof.
  intros Hk. split; [|split].
  - unfold setAuthToken, setItem. destruct (ToString token); simpl;
      [now apply lookup_insert_ne | reflexivity].
  - simpl. now apply lookup_delete_ne.
  - change (auth_logout env net w)
      with (request env net "/auth/logout" no_options (fst (clearAuthToken w))).
    rewrite request_world.
    destruct (snd (prepare _ _ _ _)) as [[url ro]|e]; simpl;
      now apply lookup_delete_ne.
Qed.

(** A stored theme survives a logout. *)
Lemma other_keys_untouched_witness :
  "theme" <> "token" /\
  localStorage (fst (auth_logout None unreachable (with_item "theme" "dark" signed_in)))
    !! "theme" = Some "dark".
Proof.
  assert (Hk : "theme" <> "token") by discriminate.
  split; [exact Hk|].
  exact (eq_trans
           (proj2 (proj2 (other_keys_untouched None unreachable JNull "theme"
                            (with_item "theme" "dark" signed_in) Hk)))
           eq_refl).
Defined.

(** X10. After [auth.logout], whatever the network did, the next request
    takes nothing from the token store: its Authorization header is the
    caller's, and there is none when the caller passed none. *)
Theorem request_after_logout_is_anonymous env net path o w url ro :
  snd (prepare env path o (fst (auth_logout env net w))) = Ok (url, ro) ->
  req_headers ro !! "Authorization" = headers o !! "Authorization".
Proof.
  intros Hp. apply prepare_inv in Hp as [_ Hb].
  rewrite (attach_body_headers _ _ _ "Authorization" Hb) by discriminate.
  assert (Hnone : localStorage (fst (auth_logout env net w)) !! "token" = None).
  { change (auth_logout env net w)
      with (request env net "/auth/logout" no_options (fst (clearAuthToken w))).
    rewrite request_world.
    destruct (snd (prepare _ _ _ _)) as [[u r]|e]; simpl; apply lookup_delete_eq. }
  unfold add_authorization, stored_token. rewrite Hnone. simpl.
  apply initial_authorization.
Qed.

(** Logging out while offline, then asking for the profile. *)
Lemma request_after_logout_is_anonymous_witness :
  snd (prepare None "/user/me" no_options
         (fst (auth_logout None unreachable signed_in)))
    = Ok (local_url "/user/me", initial_options no_options) /\
  req_headers (initial_options no_options) !! "Authorization" = None.
Proof.
  assert (Hp : snd (prepare None "/user/me" no_options
                      (fst (auth_logout None unreachable signed_in)))
               = Ok (local_url "/user/me", initial_options no_options))
    by (vm_compute; reflexivity).
  split; [exact Hp|].
  exact (eq_trans
           (request_after_logout_is_anonymous None unreachable _ _ _ _ _ Hp)
           eq_refl).
Defined.

(** X11. [user.uploadAvatar] hands exactly one request to [fetch]: a POST
    to the avatar path whose body is the form data holding the file under
    the name avatar, with no Content-Type header and no header other than
    Authorization. *)
Theorem upload_avatar_sends_form_data env net file w :
  exists ro,
    fst (user_uploadAvatar env net file w)
      = after_fetch w (API_BASE env ++ "/user/avatar") ro /\
    req_method ro = "POST" /\
    req_body ro = Some (JFormData [("avatar", file)]) /\
    (forall k, k <> "Authorization" -> req_headers ro !! k = None).
Proof.
  set (o := {| method := Some "POST"; body := JFormData [("avatar", file)];
               params := JUndefined; headers := ∅; options := [] |}).
  set (ro0 := add_authorization (stored_token w) (initial_options o)).
  exists {| req_method := req_method ro0;
            req_headers := delete "Content-Type" (req_headers ro0);
            req_options := req_options ro0;
            req_body := Some (JFormData [("avatar", file)]) |}.
  assert (Hp : snd (prepare env "/user/avatar" o w)
               = Ok (API_BASE env ++ "/user/avatar",
                     {| req_method := req_method ro0;
                        req_headers := delete "Content-Type" (req_headers ro0);
                        req_options := req_options ro0;
                        req_body := Some (JFormData [("avatar", file)]) |}))
    by (rewrite prepare_unfold; reflexivity).
  split; [exact (request_sends env net _ _ _ _ _ Hp)|].
  destruct (add_authorization_keeps (stored_token w) (initial_options o))
    as (Hm & _ & _).
  split; [exact Hm|]. split; [reflexivity|].
  intros k Hk. simpl.
  destruct (decide (k = "Content-Type")) as [->|Hct].
  - apply lookup_delete_eq.
  - rewrite lookup_delete_ne by congruence.
    unfold ro0, add_authorization.
    destruct (ToBoolean (stored_token w)); simpl.
    + rewrite lookup_insert_ne by congruence.
      rewrite lookup_union, lookup_empty, lookup_singleton_ne by congruence.
      reflexivity.
    + rewrite lookup_union, lookup_empty, lookup_singleton_ne by congruence.
      reflexivity.
Qed.

(** The payload of an error response has no [message] to show. *)
Lemma lookup_prop_missing k props :
  ~ In k (map fst props) -> lookup_prop k props = JUndefined.
Proof.
  induction props as [|[k' v] props IH]; simpl; [reflexivity|].
  intros Hin. destruct (String.eqb k k') eqn:Hk.
  - apply String.eqb_eq in Hk. subst. exfalso. apply Hin. now left.
  - apply IH. intros H. apply Hin. now right.
Qed.

(** X12. When the response is not ok and its payload has no [message]
    property, because it is not an object (null, a list, a string, a
    number) or is an object without that key, the error's message is the
    response's status text. *)
Theorem message_is_status_text_without_property env net path o w url ro r :
  snd (prepare env path o w) = Ok (url, ro) ->
  net url ro = Ok r ->
  ok r = false ->
  (forall props, payload r = JObj props -> ~ In "message" (map fst props)) ->
  snd (request env net path o w)
    = Throw (ApiError (statusText r) (status r) (payload r)).
Proof.
  intros Hp Hn Hok Hmiss.
  rewrite (request_resolved env net _ _ _ _ _ _ Hp Hn). simpl. rewrite Hok.
  assert (Hund : opt_chain (payload r) "message" = JUndefined).
  { destruct (payload r) as [| |b|n|n|s|l|props|l] eqn:Hpl; try reflexivity.
    simpl. apply lookup_prop_missing. now apply Hmiss. }
  now rewrite Hund.
Qed.

(** A validation error that lists its problems under another key. *)
Lemma message_is_status_text_without_property_witness :
  snd (prepare None "/user/me" no_options signed_out)
    = Ok (local_url "/user/me", initial_options no_options) /\
  snd (request None
         (answers {| status := 422; statusText := "Unprocessable Entity";
                     json := Some (JObj [("errors", JArr [JStr "email"])]) |})
         "/user/me" no_options signed_out)
    = Throw (ApiError "Unprocessable Entity" 422
               (JObj [("errors", JArr [JStr "email"])])).
Proof.
  assert (Hp : snd (prepare None "/user/me" no_options signed_out)
               = Ok (local_url "/user/me", initial_options no_options))
    by (vm_compute; reflexivity).
  split; [exact Hp|].
  refine (message_is_status_text_without_property None
            (answers {| status := 422; statusText := "Unprocessable Entity";
                        json := Some (JObj [("errors", JArr [JStr "email"])]) |})
            _ _ _ _ _ _ Hp eq_refl eq_refl _).
  intros props [= <-]. simpl. intros [H|[]]. discriminate.
Defined.

(** ** The query string is made of safe bytes only *)

Lemma all_bytes_app P a b :
  all_bytes P (a ++ b) = all_bytes P a && all_bytes P b.
Proof.
  induction a as [|c a IH]; simpl; [reflexivity|].
  rewrite IH. apply andb_assoc.
Qed.

Lemma encode_byte_safe c : all_bytes query_byte (encode_byte c) = true.
Proof. destruct c as [[] [] [] [] [] [] [] []]; reflexivity. Qed.

Lemma encode_safe s : all_bytes query_byte (encode s) = true.
Proof.
  induction s as [|c s IH]; simpl; [reflexivity|].
  now rewrite all_bytes_app, encode_byte_safe, IH.
Qed.

Lemma serialize_safe l : all_bytes query_byte (serialize l) = true.
Proof.
  unfold serialize. induction l as [|p l IH]; [reflexivity|].
  assert (Ht : all_bytes query_byte (tuple p) = true).
  { unfold tuple. rewrite !all_bytes_app, !encode_safe. reflexivity. }
  destruct l as [|p' l]; simpl in *.
  - exact Ht.
  - rewrite all_bytes_app, Ht. simpl. exact IH.
Qed.

(** X13. Whatever the names and values in [params], the query string that
    is appended holds only letters, digits and the bytes * - . _ + % = &:
    no space, no second question mark, no number sign, no byte above
    127. *)
Theorem query_holds_safe_bytes_only env path p url :
  ToBoolean p = true ->
  build_url env path p = Ok url ->
  exists q,
    url = (API_BASE env ++ path) ++ "?" ++ q /\
    all_bytes query_byte q = true.
Proof.
  unfold build_url. intros -> H.
  destruct (URLSearchParams.new p) as [l|e]; simpl in H; [|discriminate].
  inversion H. exists (serialize l). split; [reflexivity|].
  apply serialize_safe.
Qed.

(** A search for a dish with an accent, a space and a number sign. *)
Lemma query_holds_safe_bytes_only_witness :
  ToBoolean (JObj [("q", JStr "crème #1?")]) = true /\
  build_url None "/menu/items" (JObj [("q", JStr "crème #1?")])
    = Ok "http://127.0.0.1:5000/api/menu/items?q=cr%C3%A8me+%231%3F" /\
  exists q,
    "http://127.0.0.1:5000/api/menu/items?q=cr%C3%A8me+%231%3F"
      = (API_BASE None ++ "/menu/items") ++ "?" ++ q /\
    all_bytes query_byte q = true.
Proof.
  assert (Hu : build_url None "/menu/items" (JObj [("q", JStr "crème #1?")])
               = Ok "http://127.0.0.1:5000/api/menu/items?q=cr%C3%A8me+%231%3F")
    by (vm_compute; reflexivity).
  split; [reflexivity|]. split; [exact Hu|].
  exact (query_holds_safe_bytes_only None "/menu/items"
           (JObj [("q", JStr "crème #1?")]) _ eq_refl Hu).
Defined.

(** ** When a body can be serialized *)









(** ** Undefined properties are left out of a JSON body *)

Lemma mapM_cons {A B} (f : A -> Result B) a l :
  mapM f (a :: l) =
    match f a with
    | Throw e => Throw e
    | Ok b => match mapM f l with
              | Throw e => Throw e
              | Ok bs => Ok (b :: bs)
              end
    end.
Proof. reflexivity. Qed.

Lemma mapM_defined_props (f : string * JsVal -> Result (option string)) :
  (forall kv, snd kv = JUndefined -> f kv = Ok None) ->
  forall props,
    match mapM f props with
    | Ok parts =>
        exists parts', mapM f (defined_props props) = Ok parts' /\
                       omap id parts' = omap id parts
    | Throw e => mapM f (defined_props props) = Throw e
    end.
Proof.
  intros Hf. induction props as [|[k v] props IH].
  - simpl. now exists [].
  - rewrite mapM_cons.
    destruct (match v with JUndefined => false | _ => true end) eqn:Hd.
    + assert (Hdp : defined_props ((k, v) :: props)
                    = (k, v) :: defined_props props)
        by (unfold defined_props; simpl; now rewrite Hd).
      rewrite Hdp, mapM_cons.
      destruct (f (k, v)) as [b|e]; [|reflexivity].
      destruct (mapM f props) as [bs|e].
      * destruct IH as [bs' [-> Hbs]]. eexists. split; [reflexivity|].
        destruct b as [x|]; cbn; [f_equal|]; exact Hbs.
      * now rewrite IH.
    + assert (Hv : v = JUndefined) by (destruct v; congruence).
      subst v.
      change (defined_props ((k, JUndefined) :: props))
        with (defined_props props).
      rewrite (Hf (k, JUndefined) eq_refl).
      destruct (mapM f props) as [bs|e]; [|exact IH].
      destruct IH as [bs' [Hm Hbs]]. exists bs'. now split.
Qed.

Lemma stringify_defined_props props :
  JSON.stringify (JObj (defined_props props)) = JSON.stringify (JObj props).
Proof.
  unfold JSON.stringify. simpl.
  set (f := fun kv : string * JsVal =>
              bind (JSON.SerializeJSONProperty (snd kv))
                (fun o => Ok (option_map
                   (fun s => JSON.QuoteJSONString (fst kv) ++ ":" ++ s) o))).
  assert (Hf : forall kv, snd kv = JUndefined -> f kv = Ok None)
    by (intros kv Hkv; unfold f; now rewrite Hkv).
  pose proof (mapM_defined_props f Hf props) as H.
  destruct (mapM f props) as [parts|e].
  - destruct H as [parts' [-> Hparts]]. simpl. now rewrite Hparts.
  - now rewrite H.
Qed.

(** X15. A property whose value is undefined does not reach the server:
    a call whose body is an object behaves exactly as the call whose body
    is that object without its undefined properties. *)
Theorem undefined_properties_are_not_sent env net path o props w :
  request env net path (with_body (JObj props) o) w
  = request env net path (with_body (JObj (defined_props props)) o) w.
Proof.
  assert (Hprep : prepare env path (with_body (JObj props) o) w
                  = prepare env path (with_body (JObj (defined_props props)) o) w).
  { rewrite !prepare_unfold. simpl. unfold attach_body. simpl.
    now rewrite stringify_defined_props. }
  rewrite !request_unfold. now rewrite Hprep.
Qed.

(** X16. [user.changeStatus] called without a number of days sends the
    status alone: the call is the PATCH, to the status path of the user's
    id in its string form, whose body has the one property status. With an
    id that has no string form the template literal throws and nothing is
    sent. *)
Theorem change_status_without_days env net userId status w :
  user_changeStatus env net userId status JUndefined w
  = match ToString userId with
    | Ok idText =>
        request env net ("/user/status/" ++ idText)
          {| method := Some "PATCH"; body := JObj [("status", status)];
             params := JUndefined; headers := ∅; options := [] |} w
    | Throw e => (w, Throw e)
    end.
Proof.
  unfold user_changeStatus, bindM, lift.
  destruct (ToString userId) as [idText|e]; [|reflexivity].
  assert (Hs : JSON.stringify (JObj [("status", status); ("days", JUndefined)])
               = JSON.stringify (JObj [("status", status)])).
  { destruct status as [| | | | | | | |];
      exact (eq_sym (stringify_defined_props
                       [("status", _); ("days", JUndefined)])). }
  rewrite !request_unfold, !prepare_unfold. simpl. unfold attach_body. simpl.
  now rewrite Hs.
Qed.
